(** * f-box [Either]: a shallow embedding of [src/Either.ts]

    The TypeScript module builds an [Either] as an object literal whose
    properties are closures over the held [value].  Such an object is
    determined by the constructor that built it ([left] or [right]) and by
    [value], so it is modelled as a two-constructor inductive; every
    property initialiser of the two object literals becomes one function
    ([left_map], [right_map], ...), and a method call [e.map(fn)] is the
    dispatch on the constructor of [e].  Equality of model values is
    equality of variant and payload: JavaScript object identity is not
    represented.

    Type parameters are erased at run time, and the classification
    predicates inspect run-time values, so payloads range over one
    universe [any] of JavaScript values.  Functions supplied by the caller
    may have effects and may throw: they live in the monad [M], a state
    monad (over whatever state [State] the caller's functions touch) with
    exceptions. *)

From Stdlib Require Import ZArith String List.
Import ListNotations.
Local Open Scope string_scope.

Module Either.

(** ** JavaScript values *)

#[local] Set Warnings "-register-all,-notation-for-abbreviation".

Section Model.

(** State that caller-supplied functions may read and write. *)
Variable State : Type.
(** Function objects supplied by the caller. *)
Variable Fn : Type.

(** What a property of a foreign (not constructor-built) object holds:
    JSON-like data or a function object. *)
Inductive data : Type :=
| DNull
| DBool (b : bool)
| DNum (n : Z)
| DStr (s : string)
| DFun (f : Fn)
| DObj (props : list (string * data)).

(** The universe [any].  Numbers are the integer-valued ones plus [NaN];
    [VObj] is a plain object given by its own properties (first binding of
    a key wins); [VEither] is an object built by [left] or [right]. *)
Inductive any : Type :=
| VUndefined
| VNull
| VBool (b : bool)
| VNum (n : Z)
| VNaN
| VStr (s : string)
| VFun (f : Fn)
| VObj (props : list (string * data))
| VEither (e : Either)
with Either : Type :=
| left (value : any)
| right (value : any).

(** What a [throw] carries: a [TypeError] raised by the run time, or any
    value thrown by a caller-supplied function. *)
Inductive exn : Type :=
| TypeError (msg : string)
| Thrown (v : any).

Inductive outcome (A : Type) : Type :=
| Return (a : A)
| Throw (err : exn).
Arguments Return {A} a.
Arguments Throw {A} err.

(** Computations: run from a state, end in an outcome and a state. *)
Definition M (A : Type) : Type := State -> outcome A * State.

Definition ret {A} (a : A) : M A := fun s => (Return a, s).

Definition throw {A} (err : exn) : M A := fun s => (Throw err, s).

Definition bind {A B} (m : M A) (k : A -> M B) : M B :=
  fun s =>
    match m s with
    | (Return a, s') => k a s'
    | (Throw err, s') => (Throw err, s')
    end.

Notation "x <- m ;; k" := (bind m (fun x => k))
  (at level 61, m at next level, right associativity).

(** Behaviour of a caller-supplied function object called with one
    argument. *)
Variable call : Fn -> any -> M any.

(** Behaviour of a caller-supplied function object called with two
    callbacks, the way [isLeft] and [isRight] call the [match] that a tagged
    object carries. *)
Variable call_match : Fn -> (any -> M any) -> (any -> M any) -> M any.

(** ** Run-time primitives used by the module *)

Definition of_data (d : data) : any :=
  match d with
  | DNull => VNull
  | DBool b => VBool b
  | DNum n => VNum n
  | DStr s => VStr s
  | DFun f => VFun f
  | DObj props => VObj props
  end.

Fixpoint assoc (key : string) (props : list (string * data)) : option data :=
  match props with
  | [] => None
  | (k, d) :: rest => if String.eqb k key then Some d else assoc key rest
  end.

(** [ToBoolean]. *)
Definition truthy (v : any) : bool :=
  match v with
  | VUndefined | VNull | VNaN => false
  | VBool b => b
  | VNum n => negb (Z.eqb n 0)
  | VStr s => negb (String.eqb s "")
  | VFun _ | VObj _ | VEither _ => true
  end.

Definition typeof (v : any) : string :=
  match v with
  | VUndefined => "undefined"
  | VNull => "object"
  | VBool _ => "boolean"
  | VNum _ | VNaN => "number"
  | VStr _ => "string"
  | VFun _ => "function"
  | VObj _ | VEither _ => "object"
  end.

(** [v === true]. *)
Definition strict_eq_true (v : any) : bool :=
  match v with
  | VBool true => true
  | _ => false
  end.

(** The property read [o.isEither].  Both object literals of the module
    set [isEither: true]; a plain object yields its own property or
    [undefined]; reading a property of [null] or [undefined] throws. *)
Definition get_isEither (o : any) : M any :=
  match o with
  | VUndefined | VNull =>
      throw (TypeError "Cannot read properties of null or undefined")
  | VEither _ => ret (VBool true)
  | VObj props =>
      match assoc "isEither" props with
      | Some d => ret (of_data d)
      | None => ret VUndefined
      end
  | _ => ret VUndefined
  end.

(** [a && b]: [b] is evaluated only when [a] is truthy, and a falsy [a] is
    itself the result. *)
Definition js_and (a b : M any) : M any :=
  x <- a ;; if truthy x then b else ret x.

(** The call [fn(arg)] of a value. *)
Definition call_value (fn : any) (arg : any) : M any :=
  match fn with
  | VFun f => call f arg
  | _ => throw (TypeError "fn is not a function")
  end.

(** ** The object built by [left(value)] (Either.ts, lines 197-210) *)

Definition left_map (value : any) (_fn : any -> M any) : M Either :=
  ret (left value).

Definition left_apply (value : any) (_boxValue : Either) : M Either :=
  ret (left value).

Definition left_flatMap (value : any) (_fn : any -> M Either) : M Either :=
  ret (left value).

Definition left_getValue (value : any) : any := value.

Definition left_orElse (value : any) (defaultValue : Either) : Either :=
  defaultValue.

Definition left_getOrElse (value : any) (defaultValue : any) : any :=
  defaultValue.

Definition left_match {U} (value : any) (onLeft _onRight : any -> M U) : M U :=
  onLeft value.

(** The aliases of a [Left] are closures of their own. *)
Definition left_map_op (value : any) (_fn : any -> M any) : M Either :=
  ret (left value).

Definition left_apply_op (value : any) (_boxValue : Either) : M Either :=
  ret (left value).

Definition left_flatMap_op (value : any) (_fn : any -> M Either) : M Either :=
  ret (left value).

(** ** The object built by [right(value)] (Either.ts, lines 217-247) *)

Definition right_map (value : any) (fn : any -> M any) : M Either :=
  v <- fn value ;; ret (right v).

Definition right_flatMap (value : any) (fn : any -> M Either) : M Either :=
  fn value.

Definition right_getValue (value : any) : any := value.

Definition right_orElse (value : any) (_defaultValue : Either) : Either :=
  right value.

Definition right_getOrElse (value : any) (_defaultValue : any) : any := value.

Definition right_match {U} (value : any) (_onLeft onRight : any -> M U) : M U :=
  onRight value.

(** ** Method calls: dispatch on the receiver *)

Definition map (this : Either) (fn : any -> M any) : M Either :=
  match this with
  | left value => left_map value fn
  | right value => right_map value fn
  end.

Definition flatMap (this : Either) (fn : any -> M Either) : M Either :=
  match this with
  | left value => left_flatMap value fn
  | right value => right_flatMap value fn
  end.

Definition getValue (this : Either) : any :=
  match this with
  | left value => left_getValue value
  | right value => right_getValue value
  end.

Definition orElse (this : Either) (defaultValue : Either) : Either :=
  match this with
  | left value => left_orElse value defaultValue
  | right value => right_orElse value defaultValue
  end.

Definition getOrElse (this : Either) (defaultValue : any) : any :=
  match this with
  | left value => left_getOrElse value defaultValue
  | right value => right_getOrElse value defaultValue
  end.

Definition match_ {U} (this : Either) (onLeft onRight : any -> M U) : M U :=
  match this with
  | left value => left_match value onLeft onRight
  | right value => right_match value onLeft onRight
  end.

(** ** Helpers of the module (Either.ts, lines 253-309) *)

Definition either (value : any) : Either := right value.

Definition pack : any -> Either := either.

(** [value === null || value === undefined]: always a boolean. *)
Definition isNone (value : any) : bool :=
  match value with
  | VNull | VUndefined => true
  | _ => false
  end.

(** [value && typeof value === "object" && value.isEither === true]. *)
Definition isEither (value : any) : M any :=
  js_and
    (js_and (ret value) (ret (VBool (String.eqb (typeof value) "object"))))
    (p <- get_isEither value ;; ret (VBool (strict_eq_true p))).

(** The call [value.match(onLeft, onRight)] on an arbitrary value: an
    object built by the module runs its own [match], a plain object runs
    the function it holds under [match] if it holds one, and anything else
    has nothing to call. *)
Definition invoke_match (value : any) (onLeft onRight : any -> M any) : M any :=
  match value with
  | VEither e => match_ e onLeft onRight
  | VObj props =>
      match assoc "match" props with
      | Some (DFun f) => call_match f onLeft onRight
      | _ => throw (TypeError "value.match is not a function")
      end
  | _ => throw (TypeError "value.match is not a function")
  end.

Definition isLeft (value : any) : M any :=
  js_and (isEither value)
    (invoke_match value
       (fun l => ret (VBool (negb (isNone l))))
       (fun _ => ret (VBool false))).

Definition isRight (value : any) : M any :=
  js_and (isEither value)
    (invoke_match value
       (fun _ => ret (VBool false))
       (fun r => ret (VBool (negb (isNone r))))).

(** [apply] of a [Right] reads the function through [this]. *)
Definition right_apply (this : Either) (boxValue : Either) : M Either :=
  let fn := getValue this in
  c <- isLeft (VEither boxValue) ;;
  if truthy c then ret boxValue else map boxValue (call_value fn).

Definition apply (this : Either) (boxValue : Either) : M Either :=
  match this with
  | left value => left_apply value boxValue
  | right _ => right_apply this boxValue
  end.

(** The aliases: a [Right] stores the very same functions under the
    symbolic names, a [Left] its own closures. *)
Definition map_op (this : Either) (fn : any -> M any) : M Either :=
  match this with
  | left value => left_map_op value fn
  | right value => right_map value fn
  end.

Definition apply_op (this : Either) (boxValue : Either) : M Either :=
  match this with
  | left value => left_apply_op value boxValue
  | right _ => right_apply this boxValue
  end.

Definition flatMap_op (this : Either) (fn : any -> M Either) : M Either :=
  match this with
  | left value => left_flatMap_op value fn
  | right value => right_flatMap value fn
  end.

End Model.

Arguments DNull {Fn}.
Arguments DBool {Fn} b.
Arguments DNum {Fn} n.
Arguments DStr {Fn} s.
Arguments DFun {Fn} f.
Arguments DObj {Fn} props.
Arguments assoc {Fn} key props.
Arguments VUndefined {Fn}.
Arguments VNull {Fn}.
Arguments VBool {Fn} b.
Arguments VNum {Fn} n.
Arguments VNaN {Fn}.
Arguments VStr {Fn} s.
Arguments VFun {Fn} f.
Arguments VObj {Fn} props.
Arguments VEither {Fn} e.
Arguments left {Fn} value.
Arguments right {Fn} value.
Arguments TypeError {Fn} msg.
Arguments Thrown {Fn} v.
Arguments Return {Fn A} a.
Arguments Throw {Fn A} err.
Arguments ret {State Fn A} a _.
Arguments throw {State Fn A} err _.
Arguments bind {State Fn A B} m k _.
Arguments of_data {Fn} d.
Arguments truthy {Fn} v.
Arguments typeof {Fn} v.
Arguments strict_eq_true {Fn} v.
Arguments get_isEither {State Fn} o _.
Arguments js_and {State Fn} a b _.
Arguments call_value {State Fn} call fn arg _.
Arguments map {State Fn} this fn _.
Arguments map_op {State Fn} this fn _.
Arguments flatMap {State Fn} this fn _.
Arguments flatMap_op {State Fn} this fn _.
Arguments getValue {Fn} this.
Arguments orElse {Fn} this defaultValue.
Arguments getOrElse {Fn} this defaultValue.
Arguments match_ {State Fn U} this onLeft onRight _.
Arguments either {Fn} value.
Arguments pack {Fn} _.
Arguments isNone {Fn} value.
Arguments isEither {State Fn} value _.
Arguments invoke_match {State Fn} call_match value onLeft onRight _.
Arguments isLeft {State Fn} call_match value _.
Arguments isRight {State Fn} call_match value _.
Arguments right_apply {State Fn} call call_match this boxValue _.
Arguments apply {State Fn} call call_match this boxValue _.
Arguments apply_op {State Fn} call call_match this boxValue _.

Notation "x <- m ;; k" := (bind m (fun x => k))
  (at level 61, m at next level, right associativity).

(** ** Observations on computations *)

(** The outcome of running [m] from [s]. *)
Definition result {State Fn A} (m : M State Fn A) (s : State)
  : outcome Fn A :=
  fst (m s).

(** [m] returns normally from every state. *)
Definition returns {State Fn A} (m : M State Fn A) : Prop :=
  forall s, exists a s', m s = (Return a, s').

(** A plain object that carries the tag without having been built by
    [left] or [right]. *)
Definition foreign_tagged {Fn} (v : any Fn) : Prop :=
  exists props, v = VObj props /\ assoc "isEither" props = Some (DBool true).

(** [match] on [v] runs its left handler, and only it, on the payload [l]:
    whatever the two handlers do, the call behaves as [onLeft l]. *)
Definition fires_left {State Fn}
    (call_match : Fn -> (any Fn -> M State Fn (any Fn)) ->
                  (any Fn -> M State Fn (any Fn)) -> M State Fn (any Fn))
    (v l : any Fn) : Prop :=
  forall (onLeft onRight : any Fn -> M State Fn (any Fn)) (s : State),
    invoke_match call_match v onLeft onRight s = onLeft l s.

Definition fires_right {State Fn}
    (call_match : Fn -> (any Fn -> M State Fn (any Fn)) ->
                  (any Fn -> M State Fn (any Fn)) -> M State Fn (any Fn))
    (v r : any Fn) : Prop :=
  forall (onLeft onRight : any Fn -> M State Fn (any Fn)) (s : State),
    invoke_match call_match v onLeft onRight s = onRight r s.

(** A tagged plain object that holds the function object [f] under
    [match]. *)
Definition own_match {Fn} (v : any Fn) (f : Fn) : Prop :=
  exists props,
    v = VObj props
    /\ assoc "isEither" props = Some (DBool true)
    /\ assoc "match" props = Some (DFun f).


(** Function objects that are not written to serve as a [match]: called
    with two callbacks they are taken to throw.  Sample code whose objects
    carry no [match] of their own is run with this dispatcher. *)
Definition no_match {State Fn} (_ : Fn)
    (_onLeft _onRight : any Fn -> M State Fn (any Fn))
  : M State Fn (any Fn) :=
  throw (Thrown (VStr "not a match function")).

(** ** Sample caller code, for concrete runs

    Two function objects over a call counter: [Succ] adds one to a number,
    [Boom] throws; either one bumps the counter when it is called. *)

Inductive sample_fn : Type := Succ | Boom.

Definition sample_call (f : sample_fn) (a : any sample_fn)
  : M nat sample_fn (any sample_fn) :=
  fun calls =>
    match f with
    | Succ =>
        (Return match a with VNum n => VNum (n + 1) | _ => VNaN end,
         S calls)
    | Boom => (Throw (Thrown (VStr "boom")), S calls)
    end.

(** A caller function instrumented with the call counter. *)
Definition counted {A} (f : any sample_fn -> A) (a : any sample_fn)
  : M nat sample_fn A :=
  fun calls => (Return (f a), S calls).

(** ** Caller-side compositions *)

(** The chain [m.flatMap(f1).flatMap(f2)...], one call after the other. *)
Fixpoint flatMap_chain {State Fn} (m : Either Fn)
    (fs : list (any Fn -> M State Fn (Either Fn))) : M State Fn (Either Fn) :=
  match fs with
  | [] => ret m
  | f :: rest => m' <- flatMap m f ;; flatMap_chain m' rest
  end.

(** The fallback chain [a.orElse(b1).orElse(b2)...]. *)
Definition orElse_chain {Fn} (a : Either Fn) (bs : list (Either Fn))
  : Either Fn :=
  fold_left orElse bs a.

(** The first element built by [right], if there is one. *)
Fixpoint first_right {Fn} (es : list (Either Fn)) : option (Either Fn) :=
  match es with
  | [] => None
  | left _ :: rest => first_right rest
  | right v :: _ => Some (right v)
  end.

(** More sample caller code: [Inc] adds one to a number and counts its
    calls, [Identity] is [x => x], and [ApplyTo n] is [f => f(n)]. *)

Inductive lib_fn : Type := Inc | Identity | ApplyTo (n : Z).

Definition lib_call (f : lib_fn) (a : any lib_fn)
  : M nat lib_fn (any lib_fn) :=
  let inc (x : any lib_fn) : M nat lib_fn (any lib_fn) :=
    fun calls =>
      (Return match x with VNum n => VNum (n + 1) | _ => VNaN end, S calls) in
  match f with
  | Inc => inc a
  | Identity => ret a
  | ApplyTo n =>
      match a with
      | VFun Inc => inc (VNum n)
      | VFun Identity => ret (VNum n)
      | _ => throw (TypeError "fn is not a function")
      end
  end.

(** Function objects written to be the [match] of a tagged object:
    [AlwaysTrue] is [() => true], [AsLeft] is
    [(onLeft, onRight) => onLeft("e")]. *)

Inductive duck_fn : Type := AlwaysTrue | AsLeft.

Definition duck_call_match (f : duck_fn)
    (onLeft _onRight : any duck_fn -> M nat duck_fn (any duck_fn))
  : M nat duck_fn (any duck_fn) :=
  match f with
  | AlwaysTrue => ret (VBool true)
  | AsLeft => onLeft (VStr "e")
  end.

(** [{isEither: true, match: (onLeft, onRight) => onLeft("e")}] and
    [{isEither: true, match: () => true}]. *)
Definition duck_left : any duck_fn :=
  VObj [("isEither", DBool true); ("match", DFun AsLeft)].


(** The same two called with one argument: [AlwaysTrue] answers [true]
    and counts the call, [AsLeft] calls its argument on ["e"]. *)
Definition duck_call (f : duck_fn) (a : any duck_fn)
  : M nat duck_fn (any duck_fn) :=
  match f with
  | AlwaysTrue => fun calls => (Return (VBool true), S calls)
  | AsLeft =>
      match a with
      | VFun AlwaysTrue => fun calls => (Return (VBool true), S calls)
      | _ => throw (TypeError "onLeft is not a function")
      end
  end.

(** ** Properties *)

Section Properties.

Context {State Fn : Type}.
Variable call : Fn -> any Fn -> M State Fn (any Fn).
Variable call_match :
  Fn -> (any Fn -> M State Fn (any Fn)) -> (any Fn -> M State Fn (any Fn)) ->
  M State Fn (any Fn).

Local Notation value := (any Fn).
Local Notation Either := (Either Fn).
Local Notation M := (M State Fn).

(** Unfolds the module's functions and the monad down to the run-time
    primitives, then computes. *)
Ltac run :=
  unfold result, isLeft, isRight, invoke_match, isEither, js_and,
    apply, apply_op, right_apply, left_apply, left_apply_op,
    map, map_op, left_map, left_map_op, right_map,
    flatMap, flatMap_op, left_flatMap, left_flatMap_op, right_flatMap,
    match_, left_match, right_match, call_value, get_isEither,
    bind, ret, throw;
  cbn.

(** Case analysis on the tests a run is stuck on, reusing what an earlier
    case already decided. *)
Ltac cases :=
  repeat (cbn;
    match goal with
    | H : ?b = _ |- context [?b] => rewrite H
    | |- context [if ?b then _ else _] => destruct b eqn:?
    | |- context [match ?o with Some _ => _ | None => _ end] =>
        destruct o eqn:?
    end);
  cbn.

(** *** Classification predicates *)

Lemma isEither_VEither (e : Either) (s : State) :
  isEither (VEither e) s = (Return (VBool true), s).
Proof. reflexivity. Qed.

Lemma isEither_pure (v : value) (s : State) :
  exists r, isEither v s = (Return r, s).
Proof.
  destruct v as [ | | b | n | | str | f | props | e]; run; cases;
    eexists; reflexivity.
Qed.

(** [isEither] answers [true] exactly on the objects that carry the tag:
    those built by the module and the foreign tagged ones. *)
Lemma isEither_true_iff (v : value) (s : State) :
  result (isEither v) s = Return (VBool true)
  <-> (exists e, v = VEither e) \/ foreign_tagged v.
Proof.
  unfold foreign_tagged.
  destruct v as [ | | b | n | | str | f | props | e]; run.
  all: try (cases;
    (split; [discriminate | intros [[e' H] | [ps [H _]]]; discriminate H])).
  - destruct (assoc "isEither" props) as [d|] eqn:Hd; cbn.
    + split.
      * intros H. right. exists props. split; [reflexivity|].
        destruct d as [ | [] | | | | ]; cbn in H; try discriminate. exact Hd.
      * intros [[e' H] | [ps [H Hps]]]; [discriminate|].
        injection H as <-. rewrite Hd in Hps. injection Hps as ->. reflexivity.
    + split; [discriminate|].
      intros [[e' H] | [ps [H Hps]]]; [discriminate|].
      injection H as <-. rewrite Hd in Hps. discriminate.
  - split; [intros _; left; eexists; reflexivity | reflexivity].
Qed.

(** On an object built by the module both predicates are pure and answer
    with a boolean computed from the variant and the payload. *)
Lemma isLeft_VEither (e : Either) (s : State) :
  isLeft call_match (VEither e) s =
  (Return (VBool match e with
                 | left l => negb (isNone l)
                 | right _ => false
                 end), s).
Proof. destruct e; reflexivity. Qed.

Lemma isRight_VEither (e : Either) (s : State) :
  isRight call_match (VEither e) s =
  (Return (VBool match e with
                 | left _ => false
                 | right r => negb (isNone r)
                 end), s).
Proof. destruct e; reflexivity. Qed.

(** [isEither] answers [true] or something falsy. *)
Lemma isEither_true_or_falsy (v : value) (s : State) :
  exists r, isEither v s = (Return r, s)
            /\ (r = VBool true \/ truthy r = false).
Proof.
  destruct v as [ | | b | n | | str | f | props | e]; run; cases;
    try (eexists; split; [reflexivity | right; reflexivity]);
    try (eexists; split; [reflexivity | left; reflexivity]).
  - eexists; split; [reflexivity | right; cbn; assumption].
  - eexists; split; [reflexivity | right; cbn; assumption].
  - eexists; split; [reflexivity|].
    destruct (strict_eq_true (of_data d)); [left | right]; reflexivity.
Qed.

(** Behind a passed tag check the predicates are the call of [match]. *)
Lemma guard_tagged (v : value) (b : M value) (s : State) :
  result (isEither v) s = Return (VBool true) ->
  js_and (isEither v) b s = b s.
Proof.
  intros H. destruct (isEither_pure v s) as [r Hr].
  unfold result in H. rewrite Hr in H. injection H as ->.
  unfold js_and, bind. rewrite Hr. reflexivity.
Qed.

(** Behind a failed tag check they are what [isEither] answered, which is
    not [true]. *)
Lemma guard_untagged (v : value) (b : M value) (s : State) :
  result (isEither v) s <> Return (VBool true) ->
  js_and (isEither v) b s = isEither v s.
Proof.
  intros H. destruct (isEither_true_or_falsy v s) as [r [Hr [-> | Hf]]].
  - exfalso. apply H. unfold result. rewrite Hr. reflexivity.
  - unfold js_and, bind. rewrite Hr, Hf. reflexivity.
Qed.



(** The branch that fires and the payload it fires on are determined. *)
Lemma fires_left_unique (v l l' : value) (s : State) :
  fires_left call_match v l -> fires_left call_match v l' -> l = l'.
Proof.
  intros H H'.
  pose proof (H (fun x => ret x) (fun x => ret x) s) as H1.
  rewrite (H' (fun x => ret x) (fun x => ret x) s) in H1.
  injection H1 as ->. reflexivity.
Qed.

Lemma fires_right_unique (v r r' : value) (s : State) :
  fires_right call_match v r -> fires_right call_match v r' -> r = r'.
Proof.
  intros H H'.
  pose proof (H (fun x => ret x) (fun x => ret x) s) as H1.
  rewrite (H' (fun x => ret x) (fun x => ret x) s) in H1.
  injection H1 as ->. reflexivity.
Qed.

Lemma fires_exclusive (v l r : value) (s : State) :
  fires_left call_match v l -> fires_right call_match v r -> False.
Proof.
  intros H H'.
  pose proof (H (fun _ => ret VNull) (fun _ => throw (TypeError "")) s) as H1.
  rewrite (H' (fun _ => ret VNull) (fun _ => throw (TypeError "")) s) in H1.
  discriminate H1.
Qed.




(** Away from the tagged objects the answer of [isEither] is falsy: [false]
    for a truthy input, and the input itself for a falsy one. *)
Lemma isEither_elsewhere (v : value) (s : State) :
  (forall e, v <> VEither e) -> ~ foreign_tagged v ->
  isEither v s = (Return (if truthy v then VBool false else v), s).
Proof.
  intros He Hf.
  destruct v as [ | | b | n | | str | f | props | e];
    try (exfalso; apply (He e); reflexivity);
    run; cases; try reflexivity.
  destruct d as [ | [] | | | | ]; try reflexivity.
  exfalso. apply Hf. exists props. split; [reflexivity | assumption].
Qed.

(** C7, on the code.  A tagged object is answered with [true] and a
    truthy untagged value with [false], but a falsy input comes back
    itself: [isEither(null)] evaluates to [null] and
    [isEither(undefined)] to [undefined], not to [false]. *)
Theorem isEither_returns_falsy_input (s : State) :
  isEither (VNull : value) s = (Return VNull, s)
  /\ isEither (VUndefined : value) s = (Return VUndefined, s)
  /\ isEither (VNum 0 : value) s = (Return (VNum 0), s)
  /\ isEither (VStr "" : value) s = (Return (VStr ""), s)
  /\ isEither (VNum 42 : value) s = (Return (VBool false), s)
  /\ isEither (VEither (right (VNum 1)) : value) s = (Return (VBool true), s).
Proof. repeat split. Qed.

(** *** Combinators *)

(** C2. Receiver precedence of [apply]: a [Left] receiver is returned
    whatever the argument box is; a [Right] receiver given a [Left] box
    returns that box's [Left]; a [Right(f)] given [Right(a)] calls [f] on
    [a] once and wraps what it returns.  So
    [left("fn-error").apply(left("arg-error"))] is [Left("fn-error")] and
    [right(f).apply(left("arg-error"))] is [Left("arg-error")]. *)
Theorem apply_receiver_precedence
    (e a f : value) (g : Fn) (boxValue : Either) (s : State) :
  apply call call_match (left e) boxValue s = (Return (left e), s)
  /\ apply call call_match (right f) (left e) s = (Return (left e), s)
  /\ apply call call_match (right (VFun g)) (right a) s
     = (r <- call g a ;; ret (right r)) s
  /\ apply call call_match (left (VStr "fn-error")) (left (VStr "arg-error")) s
     = (Return (left (VStr "fn-error")), s)
  /\ apply call call_match (right f) (left (VStr "arg-error")) s
     = (Return (left (VStr "arg-error")), s).
Proof.
  repeat split.
  run. destruct (isNone e); reflexivity.
Qed.

(** C3. Left absorption: on [Left(e)], [map(f)], [flatMap(f)] and
    [apply(box)] return [Left(e)] and leave the state as it was, whatever
    [f] would do (change the state, throw): [f] is not called. *)
Theorem left_absorption
    (e : value) (f : value -> M value) (k : value -> M Either)
    (boxValue : Either) (s : State) :
  map (left e) f s = (Return (left e), s)
  /\ flatMap (left e) k s = (Return (left e), s)
  /\ apply call call_match (left e) boxValue s = (Return (left e), s).
Proof. repeat split. Qed.

(** C4. Monad laws of [flatMap], as equations between computations (same
    outcome and same final state from every state): left identity, right
    identity, associativity. *)
Theorem flatMap_monad_laws
    (x : value) (m : Either) (f g : value -> M Either) (s : State) :
  flatMap (right x) f s = f x s
  /\ flatMap m (fun v => ret (right v)) s = (Return m, s)
  /\ (m' <- flatMap m f ;; flatMap m' g) s
     = flatMap m (fun v => m' <- f v ;; flatMap m' g) s.
Proof.
  split; [reflexivity|]. split; destruct m; reflexivity.
Qed.

(** C5. Functor laws of [map]: identity and composition, and on
    [Right(v)] the result is [Right(f(v))]. *)
Theorem map_functor_laws
    (m : Either) (v : value) (f g : value -> M value) (s : State) :
  map m (fun x => ret x) s = (Return m, s)
  /\ (m' <- map m f ;; map m' g) s = map m (fun x => y <- f x ;; g y) s
  /\ map (right v) f s = (y <- f v ;; ret (right y)) s.
Proof.
  split; [destruct m; reflexivity|]. split; [|reflexivity].
  destruct m as [e | r]; [reflexivity|].
  run. destruct (f r s) as [[y | err] s']; reflexivity.
Qed.

(** C6. [orElse] and [getOrElse]: a [Right] ignores the default and
    yields itself, respectively its value; a [Left] yields the default
    Either, respectively the bare default. *)
Theorem orElse_getOrElse_defaults (v e x : value) (d : Either) :
  orElse (right v) d = right v
  /\ orElse (left e) d = d
  /\ getOrElse (right v) x = v
  /\ getOrElse (left e) x = x.
Proof. repeat split. Qed.

(** C8. [match] runs exactly one handler on the payload and returns what
    it returns: on a [Left] the call is the call [onLeft(e)], on a [Right]
    it is [onRight(v)], with the outcome and the effects of that one call
    and nothing of the other handler. *)
Theorem match_runs_one_handler
    (U : Type) (e v : value) (onLeft onRight : value -> M U) (s : State) :
  match_ (left e) onLeft onRight s = onLeft e s
  /\ match_ (right v) onLeft onRight s = onRight v s.
Proof. split; reflexivity. Qed.

(** C10. A [Right(f)] applied to a [Left(e)] with a null-like [e]: the
    guard [isLeft] answers [false], the fallback [boxValue.map(fn)] is
    taken, and since the [map] of a [Left] ignores its function the result
    is still [Left(e)], with the state untouched: [f] is not called. *)
Theorem apply_null_left_argument (f e : value) (s : State) :
  isNone e = true ->
  isLeft call_match (VEither (left e)) s = (Return (VBool false), s)
  /\ right_apply call call_match (right f) (left e) s
     = map (left e) (call_value call f) s
  /\ apply call call_match (right f) (left e) s = (Return (left e), s).
Proof.
  intros He. run. rewrite He. repeat split.
Qed.

(** *** Totality *)

Lemma returns_ret {A} (a : A) : returns (ret a : M A).
Proof. intros s. exists a, s. reflexivity. Qed.

Lemma returns_bind {A B} (m : M A) (k : A -> M B) :
  returns m -> (forall a, returns (k a)) -> returns (x <- m ;; k x).
Proof.
  intros Hm Hk s. unfold bind.
  destruct (Hm s) as [a [s' ->]]. apply Hk.
Qed.

Lemma returns_isEither (v : value) : returns (isEither v : M value).
Proof.
  intros s. destruct (isEither_pure v s) as [r Hr]. exists r, s. exact Hr.
Qed.

(** On an untagged value the guard [isEither(value) && ...] stops at
    [isEither]. *)
Lemma guard_elsewhere (v : value) (b : M value) (s : State) :
  (forall e, v <> VEither e) -> ~ foreign_tagged v ->
  js_and (isEither v) b s
  = (Return (if truthy v then VBool false else v), s).
Proof.
  intros He Hf. unfold js_and, bind.
  rewrite (isEither_elsewhere v s He Hf).
  destruct (truthy v) eqn:E; cbn; [|rewrite E]; reflexivity.
Qed.

(** The predicates return on every value whose own [match], if it is a
    foreign tagged object, is a function that returns when its handlers
    do. *)
Lemma returns_predicates (v : value) :
  (foreign_tagged v ->
   exists f, own_match v f
             /\ forall onLeft onRight : value -> M value,
                 (forall a, returns (onLeft a)) ->
                 (forall a, returns (onRight a)) ->
                 returns (call_match f onLeft onRight)) ->
  returns (isLeft call_match v : M value)
  /\ returns (isRight call_match v : M value).
Proof.
  intros Hv.
  assert (Hinv : forall onLeft onRight : value -> M value,
             (forall a, returns (onLeft a)) ->
             (forall a, returns (onRight a)) ->
             forall s, result (isEither v) s = Return (VBool true) ->
             exists a s', invoke_match call_match v onLeft onRight s
                          = (Return a, s')).
  { intros onLeft onRight HonLeft HonRight s Ht.
    apply isEither_true_iff in Ht. destruct Ht as [[e ->] | Hft].
    - destruct e as [l | r]; [apply HonLeft | apply HonRight].
    - destruct (Hv Hft) as [f [[props [-> [_ Hm]]] Hret]].
      cbn. rewrite Hm. apply Hret; assumption. }
  assert (Hguard : forall onLeft onRight : value -> M value,
             (forall a, returns (onLeft a)) ->
             (forall a, returns (onRight a)) ->
             returns (js_and (isEither v)
                        (invoke_match call_match v onLeft onRight))).
  { intros onLeft onRight HonLeft HonRight s.
    destruct (isEither_true_or_falsy v s) as [r [Hr [-> | Hf]]].
    - rewrite guard_tagged by (unfold result; rewrite Hr; reflexivity).
      apply Hinv; [assumption | assumption |].
      unfold result. rewrite Hr. reflexivity.
    - rewrite guard_untagged, Hr.
      + eexists. eexists. reflexivity.
      + unfold result. rewrite Hr. intros H. injection H as ->.
        discriminate Hf. }
  split; apply Hguard; intros a; apply returns_ret.
Qed.

(** C9, as the code has it.  With caller functions that return normally,
    a [Right] receiver of [apply] that holds such a function, and with any
    foreign tagged object given to [isLeft] and [isRight] holding such a
    function under [match], no operation throws: [map], [flatMap], their
    aliases and [match] return on every receiver, [apply] and its alias
    return, and so do [isEither], [isLeft] and [isRight] ([left], [right],
    [getValue], [orElse], [getOrElse] and [isNone] are pure total
    functions). *)
Theorem operations_return
    (U : Type) (this receiver boxValue : Either) (v : value)
    (fn : value -> M value) (k : value -> M Either)
    (onLeft onRight : value -> M U) :
  (forall a, returns (fn a)) ->
  (forall a, returns (k a)) ->
  (forall a, returns (onLeft a)) ->
  (forall a, returns (onRight a)) ->
  (forall p, receiver = right p ->
     exists f, p = VFun f /\ forall a, returns (call f a)) ->
  (foreign_tagged v ->
   exists f, own_match v f
             /\ forall onL onR : value -> M value,
                 (forall a, returns (onL a)) ->
                 (forall a, returns (onR a)) ->
                 returns (call_match f onL onR)) ->
  returns (map this fn) /\ returns (map_op this fn)
  /\ returns (apply call call_match receiver boxValue)
  /\ returns (apply_op call call_match receiver boxValue)
  /\ returns (flatMap this k) /\ returns (flatMap_op this k)
  /\ returns (match_ this onLeft onRight)
  /\ returns (isEither v : M value)
  /\ returns (isLeft call_match v : M value)
  /\ returns (isRight call_match v : M value).
Proof.
  intros Hfn Hk HonLeft HonRight Hreceiver Hv.
  assert (Hmap : forall b : Either, forall h : value -> M value,
             (forall a, returns (h a)) -> returns (map b h)).
  { intros [l | r] h Hh; [apply returns_ret|].
    apply returns_bind; [apply Hh | intros a; apply returns_ret]. }
  assert (Hap : returns (apply call call_match receiver boxValue)).
  { destruct receiver as [l | p]; [apply returns_ret|].
    destruct (Hreceiver p eq_refl) as [f [-> Hf]].
    unfold apply, right_apply. apply returns_bind.
    - intros s. rewrite isLeft_VEither. eexists; eexists; reflexivity.
    - intros c. destruct (truthy c); [apply returns_ret|].
      apply Hmap. exact Hf. }
  destruct (returns_predicates v Hv) as [HisLeft HisRight].
  repeat apply conj.
  - apply Hmap, Hfn.
  - destruct this as [l | r]; [apply returns_ret | apply (Hmap (right r)), Hfn].
  - exact Hap.
  - destruct receiver; [apply returns_ret | exact Hap].
  - destruct this; [apply returns_ret | apply Hk].
  - destruct this; [apply returns_ret | apply Hk].
  - destruct this; [apply HonLeft | apply HonRight].
  - apply returns_isEither.
  - exact HisLeft.
  - exact HisRight.
Qed.

End Properties.

(** ** Concrete runs *)

(** Call counters: a [Left] leaves the counter alone, a [Right] calls the
    function once. *)
Example map_call_counter (f : any sample_fn -> any sample_fn) (calls : nat) :
  map (left (VStr "e")) (counted f) calls = (Return (left (VStr "e")), calls)
  /\ map (right (VNum 1)) (counted f) calls
     = (Return (right (f (VNum 1))), S calls).
Proof. split; reflexivity. Qed.

Example flatMap_apply_call_counter (calls : nat) :
  flatMap (left (VStr "e")) (counted right) calls
  = (Return (left (VStr "e")), calls)
  /\ apply sample_call no_match (left (VStr "e")) (right (VNum 1)) calls
     = (Return (left (VStr "e")), calls)
  /\ apply sample_call no_match (right (VFun Succ)) (right (VNum 1)) calls
     = (Return (right (VNum 2)), S calls)
  /\ apply sample_call no_match (right (VFun Boom)) (left VNull) calls
     = (Return (left VNull), calls).
Proof. repeat split. Qed.

Example match_call_counter (calls : nat) :
  match_ (right (VNum 3)) (counted (fun _ => "L")) (counted (fun _ => "R")) calls
  = (Return "R", S calls)
  /\ match_ (left (VStr "e")) (counted (fun _ => "L")) (counted (fun _ => "R")) calls
     = (Return "L", S calls).
Proof. split; reflexivity. Qed.

(** The monad identities of the test list: [right(5).flatMap(x => right(x + 1))]
    is [right(6)], and [right(5).flatMap(right)] is [right(5)]. *)
Example flatMap_identities (calls : nat) :
  flatMap (right (VNum 5))
    (fun x => y <- sample_call Succ x ;; ret (right y)) calls
  = (Return (right (VNum 6)), S calls)
  /\ flatMap (right (VNum 5 : any sample_fn)) (fun x => ret (right x)) calls
     = (Return (right (VNum 5)), calls).
Proof. split; reflexivity. Qed.

Example orElse_getOrElse_runs :
  orElse (right (VNum 3 : any sample_fn)) (right (VNum 9)) = right (VNum 3)
  /\ orElse (left (VStr "e" : any sample_fn)) (right (VNum 9)) = right (VNum 9)
  /\ getOrElse (left (VStr "e" : any sample_fn)) (VNum 0) = VNum 0
  /\ getOrElse (right (VNum 3 : any sample_fn)) (VNum 0) = VNum 3.
Proof. repeat split. Qed.

(** A concrete instance of C10: the boxed function throws whenever it is
    called, the argument is a [Left] of [null]. *)
Lemma apply_null_left_argument_witness :
  isNone (VNull : any sample_fn) = true
  /\ apply sample_call no_match (right (VFun Boom)) (left VNull) 0%nat
     = (Return (left VNull), 0%nat).
Proof.
  split; [reflexivity|].
  exact (proj2 (proj2 (apply_null_left_argument sample_call no_match
                         (VFun Boom) VNull 0%nat eq_refl))).
Defined.

(** C9 as stated fails on a foreign tagged object: [{isEither: true}]
    passes the tag check of [isLeft] and [isRight], has no [match] to call,
    and the predicates throw a [TypeError]. *)
Lemma predicates_throw_on_foreign_tagged :
  isLeft no_match (VObj [("isEither", DBool true)] : any sample_fn) 0%nat
  = (Throw (TypeError "value.match is not a function"), 0%nat)
  /\ isRight no_match (VObj [("isEither", DBool true)] : any sample_fn) 0%nat
     = (Throw (TypeError "value.match is not a function"), 0%nat)
  /\ ~ returns (isLeft no_match (VObj [("isEither", DBool true)])
                : M nat sample_fn (any sample_fn)).
Proof.
  split; [reflexivity|]. split; [reflexivity|].
  intros H. destruct (H 0%nat) as [a [s' Ha]]. discriminate Ha.
Qed.



(** A concrete instance of the totality theorem: [map], [flatMap] and
    [match] on a [Right] of a number, [apply] on a [Right] holding
    [AlwaysTrue], and the predicates on a foreign object with a [match] of
    its own. *)
Lemma operations_return_witness :
  returns (map (right (VNum 1)) (fun x => ret x) : M nat duck_fn _)
  /\ returns (map_op (right (VNum 1)) (fun x => ret x) : M nat duck_fn _)
  /\ returns (apply duck_call duck_call_match
                (right (VFun AlwaysTrue)) (right (VNum 1)))
  /\ returns (apply_op duck_call duck_call_match
                (right (VFun AlwaysTrue)) (right (VNum 1)))
  /\ returns (flatMap (right (VNum 1)) (fun x => ret (right x))
              : M nat duck_fn _)
  /\ returns (flatMap_op (right (VNum 1)) (fun x => ret (right x))
              : M nat duck_fn _)
  /\ returns (match_ (right (VNum 1)) (fun x => ret x) (fun x => ret x)
              : M nat duck_fn (any duck_fn))
  /\ returns (isEither duck_left : M nat duck_fn _)
  /\ returns (isLeft duck_call_match duck_left)
  /\ returns (isRight duck_call_match duck_left).
Proof.
  assert (Hreceiver : forall p : any duck_fn,
             right (VFun AlwaysTrue) = right p ->
             exists f, p = VFun f /\ forall a, returns (duck_call f a)).
  { intros p Hp. injection Hp as <-. exists AlwaysTrue.
    split; [reflexivity|].
    intros a s. eexists. eexists. reflexivity. }
  assert (Hv : foreign_tagged duck_left ->
               exists f, own_match duck_left f
                 /\ forall onL onR : any duck_fn -> M nat duck_fn (any duck_fn),
                     (forall a, returns (onL a)) ->
                     (forall a, returns (onR a)) ->
                     returns (duck_call_match f onL onR)).
  { intros _. exists AsLeft. split.
    - exists [("isEither", DBool true); ("match", DFun AsLeft)].
      repeat split.
    - intros onL onR HonL _. apply HonL. }
  exact (operations_return duck_call duck_call_match (any duck_fn)
           (right (VNum 1)) (right (VFun AlwaysTrue)) (right (VNum 1))
           duck_left
           (fun x => ret x) (fun x => ret (right x))
           (fun x => ret x) (fun x => ret x)
           (fun a => returns_ret a) (fun a => returns_ret (right a))
           (fun a => returns_ret a) (fun a => returns_ret a)
           Hreceiver Hv).
Defined.

(** ** Further properties of the module *)

Section Compositions.

Context {State Fn : Type}.
Variable call : Fn -> any Fn -> M State Fn (any Fn).
Variable call_match :
  Fn -> (any Fn -> M State Fn (any Fn)) -> (any Fn -> M State Fn (any Fn)) ->
  M State Fn (any Fn).

Local Notation value := (any Fn).
Local Notation Either := (Either Fn).
Local Notation M := (M State Fn).

Ltac unfold_ops :=
  unfold pack, either, orElse_chain, isLeft, isRight, invoke_match, isEither,
    js_and, apply, apply_op, right_apply, left_apply, left_apply_op,
    map, map_op, left_map, left_map_op, right_map,
    flatMap, flatMap_op, left_flatMap, left_flatMap_op, right_flatMap,
    match_, left_match, right_match, call_value, get_isEither,
    bind, ret, throw;
  cbn.

(** *** Aliases and derived forms *)

(** X1. The symbolic aliases [<$>], [<*>] and [>>=] do what [map],
    [apply] and [flatMap] do, on a [Left] (where they are closures of their
    own) as on a [Right]. *)
Theorem aliases_agree
    (this boxValue : Either) (fn : value -> M value) (k : value -> M Either)
    (s : State) :
  map_op this fn s = map this fn s
  /\ apply_op call call_match this boxValue s
     = apply call call_match this boxValue s
  /\ flatMap_op this k s = flatMap this k s.
Proof. destruct this; repeat split. Qed.

(** X2. On a [Right] receiver [apply] is the [map] of the argument box
    with the held function, whatever the box and whatever is held: the
    [isLeft] guard only picks between two ways to the same result. *)
Theorem right_apply_is_map_of_box (f : value) (boxValue : Either) (s : State) :
  apply call call_match (right f) boxValue s
  = map boxValue (call_value call f) s.
Proof.
  destruct boxValue as [e | a]; unfold_ops; [|reflexivity].
  destruct (isNone e); reflexivity.
Qed.

(** X3. [map] is [flatMap] with the result wrapped by [right]. *)
Theorem map_is_flatMap_with_right
    (m : Either) (fn : value -> M value) (s : State) :
  map m fn s = flatMap m (fun x => y <- fn x ;; ret (right y)) s.
Proof. destruct m; reflexivity. Qed.

(** X4. Applicative laws with [pack] as the unit.  Identity: a packed
    identity function applied to any box gives the box back.
    Homomorphism: a packed function applied to a packed value is the packed
    result of the call.  Interchange: applying [u] to a packed [y] is
    applying the packed [f => f(y)] to [u]. *)
Theorem applicative_laws
    (idf h f : Fn) (x y : value) (u v : Either) (s : State) :
  (forall a t, call idf a t = (Return a, t)) ->
  (forall g t, call h g t = call_value call g y t) ->
  apply call call_match (pack (VFun idf)) v s = (Return v, s)
  /\ apply call call_match (pack (VFun f)) (pack x) s
     = (r <- call f x ;; ret (pack r)) s
  /\ apply call call_match u (pack y) s
     = apply call call_match (pack (VFun h)) u s.
Proof.
  intros Hid Hh. repeat apply conj.
  - destruct v as [e | a]; unfold_ops.
    + destruct (isNone e); reflexivity.
    + rewrite Hid. reflexivity.
  - reflexivity.
  - destruct u as [e | p]; unfold_ops.
    + destruct (isNone e); reflexivity.
    + rewrite Hh. reflexivity.
Qed.

(** *** Chains *)

(** X5. A chain of [flatMap]s started on a [Left] returns that [Left]
    without running any of its functions, and a chain splits at any point:
    running [fs ++ gs] is running [fs] and then [gs] on what came out. *)
Theorem flatMap_chain_short_circuit
    (e : value) (m : Either) (fs gs : list (value -> M Either)) (s : State) :
  flatMap_chain (left e) fs s = (Return (left e), s)
  /\ flatMap_chain m (fs ++ gs) s
     = (m' <- flatMap_chain m fs ;; flatMap_chain m' gs) s.
Proof.
  split.
  - induction fs as [|f rest IH]; [reflexivity | exact IH].
  - revert m s. induction fs as [|f rest IH]; intros m s; [reflexivity|].
    cbn [app flatMap_chain]. unfold bind in *.
    destruct (flatMap m f s) as [[m' | err] s']; [|reflexivity].
    apply IH.
Qed.

Lemma last_cons_default {A} (b d : A) (bs : list A) :
  last (b :: bs) d = last bs b.
Proof.
  revert b d. induction bs as [|c rest IH]; intros b d; [reflexivity|].
  change (last (b :: c :: rest) d) with (last (c :: rest) d).
  rewrite (IH c d), (IH c b). reflexivity.
Qed.

(** X6. [orElse] is associative, and a fallback chain
    [a.orElse(b1)...orElse(bn)] yields the first [Right] among
    [a, b1, ..., bn], or the last element when there is none. *)
Theorem orElse_chain_first_right (a b c : Either) (bs : list Either) :
  orElse (orElse a b) c = orElse a (orElse b c)
  /\ orElse_chain a bs
     = match first_right (a :: bs) with
       | Some r => r
       | None => last bs a
       end.
Proof.
  split; [destruct a; reflexivity|].
  revert a. induction bs as [|b' rest IH]; intros a.
  - destruct a; reflexivity.
  - unfold orElse_chain in *. cbn [fold_left]. rewrite IH.
    destruct a as [e | v].
    + change (orElse (left e) b') with b'.
      cbn [first_right]. rewrite last_cons_default. reflexivity.
    + change (orElse (right v) b') with (right v : Either). reflexivity.
Qed.

(** X7. [match] expresses the extractors: with the two constructors as
    handlers it rebuilds the receiver, and [getValue], [getOrElse] and
    [orElse] are the [match] with the matching pair of handlers. *)
Theorem match_expresses_extractors
    (m d : Either) (x : value) (s : State) :
  match_ m (fun l => ret (left l)) (fun r => ret (right r)) s = (Return m, s)
  /\ match_ m (fun l => ret l) (fun r => ret r) s = (Return (getValue m), s)
  /\ match_ m (fun _ => ret x) (fun r => ret r) s
     = (Return (getOrElse m x), s)
  /\ match_ m (fun _ => ret d) (fun r => ret (right r)) s
     = (Return (orElse m d), s).
Proof. destruct m; repeat split. Qed.

(** *** Errors *)

(** X8. Nothing is caught, operation by operation: when [fn] throws on
    the payload of a [Right], [map] throws the same error from the state
    [fn] left; likewise [flatMap] with its function, [match] with its right
    handler, and [apply] with the held function called on the payload of a
    [Right] box.  No [Left] is made of a throw. *)
Theorem caller_throw_propagates
    (U : Type) (v a : value) (g : Fn)
    (fn : value -> M value) (k : value -> M Either)
    (onLeft onRight : value -> M U) (s : State) :
  (forall err s', fn v s = (Throw err, s') ->
                  map (right v) fn s = (Throw err, s'))
  /\ (forall err s', k v s = (Throw err, s') ->
                     flatMap (right v) k s = (Throw err, s'))
  /\ (forall err s', onRight v s = (Throw err, s') ->
                     match_ (right v) onLeft onRight s = (Throw err, s'))
  /\ (forall err s', call g a s = (Throw err, s') ->
                     apply call call_match (right (VFun g)) (right a) s
                     = (Throw err, s')).
Proof.
  repeat apply conj; intros err s' H; unfold_ops;
    try rewrite H; try reflexivity; exact H.
Qed.

(** X9. A [Right] that holds something other than a function: applied to
    a [Right] box the call throws a [TypeError] and the state is untouched;
    applied to a [Left] box it still returns that [Left], since nothing is
    called. *)
Theorem apply_of_non_function (p a e : value) (s : State) :
  (forall g, p <> VFun g) ->
  apply call call_match (right p) (right a) s
  = (Throw (TypeError "fn is not a function"), s)
  /\ apply call call_match (right p) (left e) s = (Return (left e), s).
Proof.
  intros Hp. split.
  - destruct p; try reflexivity. exfalso. apply (Hp f). reflexivity.
  - unfold_ops. destruct (isNone e); reflexivity.
Qed.

(** *** Classification *)

(** X11. On an object built by [left] or [right] the two predicates
    answer with booleans that are never both [true], and one of them is
    [true] exactly when the payload is not null-like. *)
Theorem predicates_on_built_either (e : Either) (s : State) :
  exists bl br : bool,
    isLeft call_match (VEither e) s = (Return (VBool bl), s)
    /\ isRight call_match (VEither e) s = (Return (VBool br), s)
    /\ andb bl br = false
    /\ orb bl br = negb (isNone (getValue e)).
Proof.
  destruct e as [l | r].
  - exists (negb (isNone l)), false. repeat split.
    + apply Bool.andb_false_r.
    + apply Bool.orb_false_r.
  - exists false, (negb (isNone r)). repeat split.
Qed.

(** X13. [map] and classification.  Mapping a [Left] keeps what [isLeft]
    says of it.  Mapping a [Right] with a function that returns [y] gives a
    value that [isLeft] rejects and that [isRight] accepts exactly when [y]
    is not null-like: a function returning [null] produces an Either that
    is neither. *)
Theorem map_and_classification
    (e v y : value) (fn : value -> M value) (s s' : State) :
  fn v s = (Return y, s') ->
  (exists m, map (left e) fn s = (Return m, s)
             /\ isLeft call_match (VEither m) s
                = isLeft call_match (VEither (left e)) s)
  /\ (exists m, map (right v) fn s = (Return m, s')
                /\ isLeft call_match (VEither m) s' = (Return (VBool false), s')
                /\ isRight call_match (VEither m) s'
                   = (Return (VBool (negb (isNone y))), s')).
Proof.
  intros Hfn. split.
  - exists (left e). split; reflexivity.
  - exists (right y). unfold_ops. rewrite Hfn. repeat split.
Qed.

(** X14. On a value that does not carry the tag, [isLeft] and [isRight]
    stop at the tag check and answer what [isEither] answers: [false] for a
    truthy value, the value itself for a falsy one; [match] is not
    looked up. *)
Theorem predicates_stop_at_tag_check (v : value) (s : State) :
  (forall e, v <> VEither e) ->
  ~ foreign_tagged v ->
  isLeft call_match v s = isEither v s
  /\ isRight call_match v s = isEither v s
  /\ isEither v s = (Return (if truthy v then VBool false else v), s).
Proof.
  intros He Hf. unfold isLeft, isRight.
  rewrite !guard_elsewhere by assumption.
  rewrite isEither_elsewhere by assumption.
  repeat split.
Qed.

End Compositions.

(** ** Concrete instances of the conditional properties *)

Lemma applicative_laws_witness :
  apply lib_call no_match (pack (VFun Identity)) (left VNull) 0%nat
  = (Return (left VNull), 0%nat)
  /\ apply lib_call no_match (pack (VFun Inc)) (pack (VNum 1)) 0%nat
     = (Return (right (VNum 2)), 1%nat)
  /\ apply lib_call no_match (right (VFun Inc)) (pack (VNum 5)) 0%nat
     = apply lib_call no_match (pack (VFun (ApplyTo 5))) (right (VFun Inc))
         0%nat.
Proof.
  assert (Hid : forall (a : any lib_fn) (t : nat),
             lib_call Identity a t = (Return a, t)).
  { intros a t. reflexivity. }
  assert (Hh : forall (g : any lib_fn) (t : nat),
             lib_call (ApplyTo 5) g t = call_value lib_call g (VNum 5) t).
  { intros g t. destruct g as [ | | b | n | | str | [ | | n] | props | e];
      reflexivity. }
  exact (applicative_laws lib_call no_match Identity (ApplyTo 5) Inc
           (VNum 1) (VNum 5)
           (right (VFun Inc)) (left VNull) 0%nat Hid Hh).
Defined.

Lemma caller_throw_propagates_witness :
  map (right (VNum 1)) (sample_call Boom) 0%nat
  = (Throw (Thrown (VStr "boom")), 1%nat)
  /\ flatMap (right (VNum 1))
       (fun x => y <- sample_call Boom x ;; ret (right y)) 0%nat
     = (Throw (Thrown (VStr "boom")), 1%nat)
  /\ match_ (right (VNum 1)) (fun l => ret l) (sample_call Boom) 0%nat
     = (Throw (Thrown (VStr "boom")), 1%nat)
  /\ apply sample_call no_match (right (VFun Boom)) (right (VNum 1)) 0%nat
     = (Throw (Thrown (VStr "boom")), 1%nat).
Proof.
  pose proof (caller_throw_propagates sample_call no_match (any sample_fn)
                (VNum 1) (VNum 1) Boom (sample_call Boom)
                (fun x => y <- sample_call Boom x ;; ret (right y))
                (fun l => ret l) (sample_call Boom) 0%nat)
    as [Hmap [HflatMap [Hmatch Happly]]].
  split; [exact (Hmap _ _ eq_refl)|].
  split; [exact (HflatMap _ _ eq_refl)|].
  split; [exact (Hmatch _ _ eq_refl) | exact (Happly _ _ eq_refl)].
Defined.

Lemma apply_of_non_function_witness :
  apply sample_call no_match (right (VNum 5)) (right (VNum 1)) 0%nat
  = (Throw (TypeError "fn is not a function"), 0%nat)
  /\ apply sample_call no_match (right (VNum 5)) (left (VStr "e")) 0%nat
     = (Return (left (VStr "e")), 0%nat).
Proof.
  assert (Hp : forall g : sample_fn, VNum 5 <> VFun g).
  { intros g H. discriminate H. }
  exact (apply_of_non_function sample_call no_match (VNum 5) (VNum 1)
           (VStr "e") 0%nat Hp).
Defined.

Lemma map_and_classification_witness :
  exists m : Either sample_fn,
    map (right (VNum 1)) (counted (fun _ => VNull)) 0%nat = (Return m, 1%nat)
    /\ isLeft no_match (VEither m) 1%nat = (Return (VBool false), 1%nat)
    /\ isRight no_match (VEither m) 1%nat = (Return (VBool false), 1%nat).
Proof.
  exact (proj2 (map_and_classification no_match (VStr "e") (VNum 1) VNull
                  (counted (fun _ => VNull)) 0%nat 1%nat eq_refl)).
Defined.

Lemma predicates_stop_at_tag_check_witness :
  isLeft no_match (VNull : any sample_fn) 0%nat = isEither VNull 0%nat
  /\ isRight no_match (VNull : any sample_fn) 0%nat = isEither VNull 0%nat
  /\ isEither (VNull : any sample_fn) 0%nat = (Return VNull, 0%nat).
Proof.
  assert (He : forall e : Either sample_fn, VNull <> VEither e).
  { intros e H. discriminate H. }
  assert (Hf : ~ foreign_tagged (VNull : any sample_fn)).
  { intros [props [H _]]. discriminate H. }
  exact (predicates_stop_at_tag_check no_match VNull 0%nat He Hf).
Defined.

End Either.
